(** * Quotation builder (script.js): line-item store, totals and view rules

    A shallow embedding of [src/script.js].  The script keeps two globals
    ([products], [isSummaryMode]) and writes its results into the page; the
    model threads one [State] record through every function, holding the two
    globals, the page elements the script touches, the console and the print
    jobs handed to the browser.

    JavaScript Numbers are IEEE 754 binary64 values; they are modelled with
    the Standard Library's executable specification of binary floats
    ([SpecFloat], [prec = 53], [emax = 1024]), so that [+], [*], [<=] and
    [isNaN] keep the rounding and the NaN and infinity behaviour of the
    script. *)

From Stdlib Require Import ZArith List String Ascii Bool Lia DecimalString.
From Stdlib Require Import SpecFloat Permutation.
Import ListNotations.

Local Open Scope Z_scope.
Local Open Scope string_scope.
Local Open Scope list_scope.

(** ** JavaScript Numbers *)

Module Num.

Definition Number := spec_float.

Definition prec : Z := 53.
Definition emax : Z := 1024.

Definition add : Number -> Number -> Number := SFadd prec emax.
Definition mul : Number -> Number -> Number := SFmul prec emax.

(** [x <= y] and [x < y] on Numbers: false as soon as one side is NaN. *)
Definition leb : Number -> Number -> bool := SFleb.
Definition ltb : Number -> Number -> bool := SFltb.

(** The global [isNaN], applied to a value that already is a Number. *)
Definition isNaN (x : Number) : bool :=
  match x with S754_nan => true | _ => false end.

Definition isFinite (x : Number) : bool :=
  match x with S754_zero _ | S754_finite _ _ _ => true | _ => false end.

Definition NaN : Number := S754_nan.
Definition Infinity : Number := S754_infinity false.
Definition zero : Number := S754_zero false.

(** The Number nearest to [(-1)^s * m * 10^e] (ties to even): the value of
    a decimal literal.  The division of the two exact integers
    [m * 10^max(e,0)] and [10^max(-e,0)] is rounded once. *)
Definition of_decimal (s : bool) (m : Z) (e : Z) : Number :=
  match m with
  | Zpos p =>
      SFdiv prec emax
        (S754_finite s (Z.to_pos (Zpos p * 10 ^ Z.max e 0)) 0)
        (S754_finite false (Z.to_pos (10 ^ Z.max (- e) 0)) 0)
  | _ => S754_zero s
  end.

(** The Number of a non-negative integer literal. *)
Definition of_Z (n : Z) : Number := of_decimal false n 0.

End Num.

(** ** JavaScript strings and the parsing built-ins

    Strings are sequences of code units; the model keeps the code units
    below 256 ([string]).  [trim], [parseFloat] and [parseInt] follow
    ECMAScript's definitions on them. *)

Module Str.

(** WhiteSpace and LineTerminator code units below 256: TAB, LF, VT, FF,
    CR, SP and NBSP. *)
Definition isWhiteSpace (c : ascii) : bool :=
  let n := N_of_ascii c in
  (((9 <=? n) && (n <=? 13)) || (n =? 32) || (n =? 160))%N.

Fixpoint trimStart (s : string) : string :=
  match s with
  | String c r => if isWhiteSpace c then trimStart r else s
  | EmptyString => EmptyString
  end.

Definition reverse (s : string) : string :=
  string_of_list_ascii (rev (list_ascii_of_string s)).

Definition trimEnd (s : string) : string := reverse (trimStart (reverse s)).

(** [String.prototype.trim] *)
Definition trim (s : string) : string := trimEnd (trimStart s).

Definition digit (c : ascii) : option Z :=
  let n := N_of_ascii c in
  if ((48 <=? n) && (n <=? 57))%N then Some (Z.of_N n - 48) else None.

(** [digits acc k s]: reads the longest run of decimal digits at the start
    of [s]; returns the integer they spell after the digits already in
    [acc], the number of digits read added to [k], and the rest. *)
Fixpoint digits (acc : Z) (k : nat) (s : string) : Z * nat * string :=
  match s with
  | String c r =>
      match digit c with
      | Some d => digits (10 * acc + d) (S k) r
      | None => (acc, k, s)
      end
  | EmptyString => (acc, k, s)
  end.

(** An optional sign: [true] for [-]. *)
Definition sign (s : string) : bool * string :=
  match s with
  | String "-" r => (true, r)
  | String "+" r => (false, r)
  | _ => (false, s)
  end.

(** ExponentPart, when one follows: [e] or [E], an optional sign and at
    least one digit; otherwise the exponent is 0 and the text is not part
    of the literal. *)
Definition exponent (s : string) : Z :=
  match s with
  | String c r =>
      if (Ascii.eqb c "e" || Ascii.eqb c "E")%bool then
        let '(neg, r') := sign r in
        let '(v, k, _) := digits 0 0 r' in
        match k with
        | O => 0
        | S _ => if neg then - v else v
        end
      else 0
  | EmptyString => 0
  end.

(** [parseFloat]: leading white space is skipped, the longest prefix that
    is a StrDecimalLiteral is taken, and NaN is returned when there is
    none. *)
Definition parseFloat (input : string) : Num.Number :=
  let '(neg, s) := sign (trimStart input) in
  if prefix "Infinity" s then S754_infinity neg
  else
    let '(ip, ki, r) := digits 0 0 s in
    match r with
    | String "." r' =>
        let '(m, kf, r'') := digits ip 0 r' in
        match ki, kf with
        | O, O => Num.NaN
        | _, _ => Num.of_decimal neg m (exponent r'' - Z.of_nat kf)
        end
    | _ =>
        match ki with
        | O => Num.NaN
        | S _ => Num.of_decimal neg ip (exponent r)
        end
    end.

(** [parseInt(input, 10)]: leading white space is skipped, an optional
    sign is read, then the longest run of decimal digits; NaN when the run
    is empty. *)
Definition parseInt (input : string) : Num.Number :=
  let '(neg, s) := sign (trimStart input) in
  let '(v, k, _) := digits 0 0 s in
  match k with
  | O => Num.NaN
  | S _ => Num.of_decimal neg v 0
  end.

End Str.

(** ** The page

    The elements of the document that the script reads or writes.  The
    markup itself is not part of the script, so the page the script starts
    from is a parameter of [initial]. *)

Module Dom.

(** [classList.add] and [classList.remove] on a list of class tokens. *)
Definition classList_contains (tok : string) (l : list string) : bool :=
  existsb (String.eqb tok) l.

Definition classList_add (tok : string) (l : list string) : list string :=
  if classList_contains tok l then l else l ++ [tok].

Definition classList_remove (tok : string) (l : list string) : list string :=
  filter (fun t => negb (String.eqb tok t)) l.

(** The class tokens of a [class] attribute: its words between spaces. *)
Fixpoint tokens_from (cur : string) (s : string) : list string :=
  match s with
  | EmptyString => if String.eqb cur "" then [] else [cur]
  | String c r =>
      if Ascii.eqb c " " then
        (if String.eqb cur "" then tokens_from "" r
         else cur :: tokens_from "" r)
      else tokens_from (cur ++ String c "")%string r
  end.

Definition tokens (s : string) : list string := tokens_from "" s.

(** Text content.  Texts made from a Number are kept symbolic, the Number
    recorded as the script hands it over: [${x}] in a template,
    [formatter.format(x)] (Intl.NumberFormat, en-US, LKR, at least two
    fraction digits), and [formatter.format(x).replace('LKR', '')]. *)
Inductive Text :=
| Plain (s : string)
| OfNumber (x : Num.Number)
| Currency (x : Num.Number)
| CurrencyNoCode (x : Num.Number).

(** One [<tr>] of the quotation table body, cell by cell. *)
Record Row := mkRow {
  className : list string;      (* class tokens of the row *)
  indexCell : nat;              (* [${index + 1}] *)
  nameCell : string;            (* [${p.name}] *)
  qtyCellClass : string;
  qtyCell : Text;               (* [${p.qty}] *)
  priceCellClass : string;
  priceCell : Text;             (* [formatter.format(p.price).replace('LKR', '')] *)
  totalCell : Text;             (* [formatter.format(rowTotal)] *)
  removeButton : Z              (* [onclick="deleteProduct(${p.id})"] *)
}.

Record Page := mkPage {
  productName : string;            (* [el('productName').value] *)
  unitPrice : string;              (* [el('unitPrice').value] *)
  quantity : string;               (* [el('quantity').value] *)
  quotationTableBody : list Row;
  subTotal : Text;
  vatAmount : Text;
  grandTotal : Text;
  summaryButton : string;
  headerPrice : list string;       (* class tokens of the unit-price header *)
  tableFooterCells : list Z        (* colspan of each [tfoot td:first-child] *)
}.

End Dom.

Import Dom.

(** ** The script *)

(** Values a function of the script returns to its caller. *)
Inductive Value :=
| Undefined
| Boolean (b : bool).

Record Product := mkProduct {
  id : Z;
  name : string;
  price : Num.Number;
  qty : Num.Number
}.

(** The two globals, the page, the console and the print jobs: each call of
    [window.print()] records the view mode and the page it prints. *)
Record State := mkState {
  products : list Product;
  isSummaryMode : bool;
  page : Page;
  console : list string;
  printed : list (bool * Page)
}.

Definition with_products (ps : list Product) (st : State) : State :=
  mkState ps (isSummaryMode st) (page st) (console st) (printed st).

Definition with_isSummaryMode (b : bool) (st : State) : State :=
  mkState (products st) b (page st) (console st) (printed st).

Definition with_page (pg : Page) (st : State) : State :=
  mkState (products st) (isSummaryMode st) pg (console st) (printed st).

(** [const VAT_RATE = 0.18] *)
Definition VAT_RATE : Num.Number := Eval vm_compute in Num.of_decimal false 18 (-2).

(** The three locals of [calculateTotals]. *)
Record Totals := mkTotals {
  subtotal : Num.Number;
  vatAmountOf : Num.Number;
  grandTotalOf : Num.Number
}.

Definition lineTotal (p : Product) : Num.Number := Num.mul (price p) (qty p).

(** [products.reduce((acc, p) => acc + (p.price * p.qty), 0)] and the two
    figures derived from it. *)
Definition computeTotals (ps : list Product) : Totals :=
  let subtotal := fold_left (fun acc p => Num.add acc (Num.mul (price p) (qty p))) ps Num.zero in
  let vatAmount := Num.mul subtotal VAT_RATE in
  let grandTotal := Num.add subtotal vatAmount in
  mkTotals subtotal vatAmount grandTotal.

(** [calculateTotals()]: the three figures go to the page through the
    formatter, unrounded. *)
Definition calculateTotals (st : State) : State :=
  let t := computeTotals (products st) in
  let pg := page st in
  with_page
    (mkPage (productName pg) (unitPrice pg) (quantity pg) (quotationTableBody pg)
            (Currency (subtotal t)) (Currency (vatAmountOf t)) (Currency (grandTotalOf t))
            (summaryButton pg) (headerPrice pg) (tableFooterCells pg))
    st.

(** The body of the [forEach] callback of [renderProducts]. *)
Definition renderRow (summary : bool) (p : Product) (index : nat) : Row :=
  let rowTotal := Num.mul (price p) (qty p) in
  let cls := ["hover:bg-gray-50"; "transition"; "duration-150"] in
  let cls := if Nat.eqb index 9 then classList_add "page-break-after-ten" cls else cls in
  let qtyClass := "hidden lg:table-cell" in
  let priceClass := if summary then "hidden" else "hidden lg:table-cell" in
  mkRow cls (index + 1)%nat (name p)
        ("px-6 py-3 text-right " ++ qtyClass)%string (OfNumber (qty p))
        ("px-6 py-3 text-right " ++ priceClass)%string (CurrencyNoCode (price p))
        (Currency rowTotal) (id p).

(** [products.forEach((p, index) => ...)], from [index] on. *)
Fixpoint forEach (summary : bool) (index : nat) (ps : list Product) : list Row :=
  match ps with
  | [] => []
  | p :: rest => renderRow summary p index :: forEach summary (S index) rest
  end.

(** [renderProducts()] *)
Definition renderProducts (st : State) : State :=
  let pg := page st in
  calculateTotals
    (with_page
       (mkPage (productName pg) (unitPrice pg) (quantity pg)
               (forEach (isSummaryMode st) 0 (products st))
               (subTotal pg) (vatAmount pg) (grandTotal pg)
               (summaryButton pg) (headerPrice pg) (tableFooterCells pg))
       st).

Definition validationMessage : string :=
  "Validation Error: Please enter a valid name, price (>0), and quantity (>0).".

(** The guard of [addProduct]:
    [!name || isNaN(price) || price <= 0 || isNaN(qty) || qty <= 0]. *)
Definition rejected (name : string) (price qty : Num.Number) : bool :=
  String.eqb name "" || Num.isNaN price || Num.leb price Num.zero
  || Num.isNaN qty || Num.leb qty Num.zero.

(** [addProduct()]; [now] is the reading of [Date.now()]. *)
Definition addProduct (now : Z) (st : State) : Value * State :=
  let pg := page st in
  let name := Str.trim (productName pg) in
  let price := Str.parseFloat (unitPrice pg) in
  let qty := Str.parseInt (quantity pg) in
  if rejected name price qty then
    (Undefined,
     mkState (products st) (isSummaryMode st) pg
             (console st ++ [validationMessage]) (printed st))
  else
    let st1 := with_products (products st ++ [mkProduct now name price qty]) st in
    let st2 :=
      with_page
        (mkPage "" "" "1" (quotationTableBody pg)
                (subTotal pg) (vatAmount pg) (grandTotal pg)
                (summaryButton pg) (headerPrice pg) (tableFooterCells pg))
        st1 in
    (Undefined, renderProducts st2).

(** [deleteProduct(id)] *)
Definition deleteProduct (i : Z) (st : State) : Value * State :=
  (Undefined,
   renderProducts
     (with_products (filter (fun p => negb (Z.eqb (id p) i)) (products st)) st)).

(** [toggleSummaryView()] *)
Definition toggleSummaryView (st : State) : State :=
  let st := with_isSummaryMode (negb (isSummaryMode st)) st in
  let pg := page st in
  let button :=
    if isSummaryMode st then "Exit Summary View (Show Details)"
    else "Toggle Summary View (Show Totals Only)" in
  let totalFooterColumns := 4 in
  let pg' :=
    if isSummaryMode st then
      mkPage (productName pg) (unitPrice pg) (quantity pg) (quotationTableBody pg)
             (subTotal pg) (vatAmount pg) (grandTotal pg) button
             (classList_add "hidden" (headerPrice pg))
             (map (fun _ => totalFooterColumns - 1) (tableFooterCells pg))
    else
      mkPage (productName pg) (unitPrice pg) (quantity pg) (quotationTableBody pg)
             (subTotal pg) (vatAmount pg) (grandTotal pg) button
             (classList_remove "hidden" (headerPrice pg))
             (map (fun _ => totalFooterColumns) (tableFooterCells pg)) in
  renderProducts (with_page pg' st).

(** [window.print()]: the browser prints the page as it is now. *)
Definition window_print (st : State) : State :=
  mkState (products st) (isSummaryMode st) (page st) (console st)
          (printed st ++ [(isSummaryMode st, page st)]).

(** [printQuotation()] *)
Definition printQuotation (st : State) : State :=
  let st := if isSummaryMode st then toggleSummaryView st else st in
  window_print st.

(** *** Start of the script

    [clock k] is the reading of [Date.now()] in the creation of the [k]-th
    demonstration item: three items in the array literal, nine in the loop
    [for (let i = 4; i <= 12; i++)]. *)

Definition seedLiteral (clock : Z -> Z) : list Product :=
  [ mkProduct (clock 1 + 1) "ERP System License (1 Year)" (Num.of_Z 85000) (Num.of_Z 1);
    mkProduct (clock 2 + 2) "On-site Implementation Service" (Num.of_Z 50000) (Num.of_Z 1);
    mkProduct (clock 3 + 3) "Custom Reporting Module Development" (Num.of_Z 120000) (Num.of_Z 1) ].

Definition seedItem (clock : Z -> Z) (i : Z) : Product :=
  mkProduct (clock i + i)
            ("Software License Maintenance Package "
               ++ DecimalString.NilZero.string_of_int (Z.to_int i))%string
            (Num.of_Z 15000)
            (Num.of_Z (i mod 3 + 1)).

Definition seedLoop (clock : Z -> Z) (ps : list Product) : list Product :=
  fold_left (fun ps i => ps ++ [seedItem clock i]) (map Z.of_nat (seq 4 9)) ps.

(** The state once the script has run to its last line, on the page
    [markup]. *)
Definition initial (markup : Page) (clock : Z -> Z) : State :=
  renderProducts (mkState (seedLoop clock (seedLiteral clock)) false markup [] []).

(** *** User actions

    The user fills the form, presses a button or prints; the page also
    fires [DOMContentLoaded] (its handler renders again; [saveClientInfo]
    writes client fields that no property below reads and is left out). *)
Inductive Event :=
| Fill (name price qty : string)
| AddProduct (now : Z)
| DeleteProduct (i : Z)
| ToggleSummaryView
| PrintQuotation
| DOMContentLoaded.

Definition fill (name price qty : string) (st : State) : State :=
  let pg := page st in
  with_page
    (mkPage name price qty (quotationTableBody pg)
            (subTotal pg) (vatAmount pg) (grandTotal pg)
            (summaryButton pg) (headerPrice pg) (tableFooterCells pg))
    st.

Definition handle (st : State) (e : Event) : State :=
  match e with
  | Fill n p q => fill n p q st
  | AddProduct now => snd (addProduct now st)
  | DeleteProduct i => snd (deleteProduct i st)
  | ToggleSummaryView => toggleSummaryView st
  | PrintQuotation => printQuotation st
  | DOMContentLoaded => renderProducts st
  end.

(** A session: the actions [es], in order, from the state [st]. *)
Definition run (st : State) (es : list Event) : State := fold_left handle es st.

(** The specification's [addItem(name, unitPrice, quantity)]: the three
    texts are put in the form and [addProduct] is called. *)
Definition addItem (name price qty : string) (now : Z) (st : State) : Value * State :=
  addProduct now (fill name price qty st).

(** The specification's [removeItem(id)]. *)
Definition removeItem (i : Z) (st : State) : Value * State := deleteProduct i st.

(** A page for the examples: empty form, empty table, one unit-price header
    without [hidden], three footer label cells spanning four columns. *)
Definition samplePage : Page :=
  mkPage "" "" "1" [] (Plain "") (Plain "") (Plain "")
         "Toggle Summary View (Show Totals Only)" ["px-6"; "py-3"] [4; 4; 4].


(** ** Notions of the specification *)

(** The sum of the specification, [f 0 + f 1 + ... + f (n-1)], in Number
    arithmetic and from an empty sum of 0. *)
Fixpoint bigsum (n : nat) (f : nat -> Num.Number) : Num.Number :=
  match n with
  | O => Num.zero
  | S k => Num.add (bigsum k f) (f k)
  end.

(** [unitPrice_i * quantity_i] of the [i]-th item (0 past the end). *)
Definition lineTotalAt (ps : list Product) (i : nat) : Num.Number :=
  match nth_error ps i with
  | Some p => lineTotal p
  | None => Num.zero
  end.

(** Σ (unitPrice_i * quantity_i) over all items. *)
Definition sumLineTotals (ps : list Product) : Num.Number :=
  bigsum (List.length ps) (lineTotalAt ps).

(** The items of the first scenario of the specification. *)
Definition scenarioItems : list Product :=
  [ mkProduct 1 "License" (Num.of_Z 85000) (Num.of_Z 1);
    mkProduct 2 "Service" (Num.of_Z 50000) (Num.of_Z 1);
    mkProduct 3 "Module" (Num.of_Z 120000) (Num.of_Z 1) ].

(** What a rejected [addProduct] leaves behind: the state it found, with
    the validation message on the console. *)
Definition logError (st : State) : State :=
  mkState (products st) (isSummaryMode st) (page st)
          (console st ++ [validationMessage]) (printed st).

(** Whether an item with identifier [i] is in the store. *)
Definition present (i : Z) (ps : list Product) : bool :=
  existsb (fun p => Z.eqb (id p) i) ps.

(** The page shows the store: rendering again changes nothing. *)
Definition synced (st : State) : Prop := renderProducts st = st.

(** The row carries the page-break marker. *)
Definition pageBreak (r : Row) : bool :=
  classList_contains "page-break-after-ten" (className r).

(** The unit-price cell of a row is suppressed: its class has [hidden] and
    no [lg:table-cell] to bring it back. *)
Definition priceSuppressed (r : Row) : bool :=
  classList_contains "hidden" (tokens (priceCellClass r))
  && negb (classList_contains "lg:table-cell" (tokens (priceCellClass r))).

(** The unit-price cell of a row is shown as the columns that no view mode
    hides are: it has the class of the quantity cell, with
    [lg:table-cell]. *)
Definition priceShown (r : Row) : bool :=
  String.eqb (priceCellClass r) (qtyCellClass r)
  && classList_contains "lg:table-cell" (tokens (priceCellClass r)).

(** The effects of the view mode on the page: header, rows and footer. *)
Definition summaryEffects (pg : Page) : bool :=
  classList_contains "hidden" (headerPrice pg)
  && forallb priceSuppressed (quotationTableBody pg)
  && forallb (Z.eqb 3) (tableFooterCells pg).

Definition detailedEffects (pg : Page) : bool :=
  negb (classList_contains "hidden" (headerPrice pg))
  && forallb priceShown (quotationTableBody pg)
  && forallb (Z.eqb 4) (tableFooterCells pg).

Definition modeEffects (summary : bool) (pg : Page) : bool :=
  if summary then summaryEffects pg else detailedEffects pg.

(** A row without the class of its unit-price cell. *)
Definition rowContent (r : Row) :=
  (className r, indexCell r, nameCell r, qtyCellClass r, qtyCell r,
   priceCell r, totalCell r, removeButton r).


(** ** Further parts of the script *)

(** The client fields of the page: the three inputs [saveClientInfo] reads
    and the three display elements it writes. *)
Record ClientPanel := mkClientPanel {
  clientName : string;              (* [el('clientName').value] *)
  clientAddress : string;           (* [el('clientAddress').value] *)
  clientContact : string;           (* [el('clientContact').value] *)
  displayClientName : string;       (* [el('displayClientName').textContent] *)
  displayClientAddress : string;
  displayClientContact : string
}.

(** [s || d] on strings: the empty string is the only falsy one. *)
Definition orElse (s d : string) : string :=
  if String.eqb s "" then d else s.

(** [saveClientInfo()] *)
Definition saveClientInfo (c : ClientPanel) : ClientPanel :=
  let name := orElse (Str.trim (clientName c)) "Client Name Here" in
  let address := orElse (Str.trim (clientAddress c)) "Client Address Here" in
  let contact := orElse (Str.trim (clientContact c)) "Client Contact Info Here" in
  mkClientPanel (clientName c) (clientAddress c) (clientContact c)
                name address ("Attn: " ++ contact)%string.

(** An item as the guard of [addProduct] lets it in: a name that is not
    empty, a unit price above 0 and a quantity above 0. *)
Definition validItem (p : Product) : bool :=
  negb (String.eqb (name p) "")
  && Num.ltb Num.zero (price p) && Num.ltb Num.zero (qty p).

(** A Number that is neither NaN nor negative: +0, a positive finite
    Number or positive infinity. *)
Definition nonNegative (x : Num.Number) : bool :=
  match x with
  | S754_zero s | S754_infinity s | S754_finite s _ _ => negb s
  | S754_nan => false
  end.

(** Every [addProduct] of the session [es] from [st] runs at a reading of
    the clock that no item of the store carries at that moment. *)
Fixpoint timely (st : State) (es : list Event) : bool :=
  match es with
  | [] => true
  | e :: es' =>
      match e with
      | AddProduct now => negb (present now (products st))
      | _ => true
      end && timely (handle st e) es'
  end.

Definition isPrint (e : Event) : bool :=
  match e with PrintQuotation => true | _ => false end.

(** The input fields as [addProduct] reads them. *)
Definition formRejected (st : State) : bool :=
  rejected (Str.trim (productName (page st)))
           (Str.parseFloat (unitPrice (page st)))
           (Str.parseInt (quantity (page st))).

(** The item [addProduct] builds from the form at the reading [now]. *)
Definition formItem (now : Z) (st : State) : Product :=
  mkProduct now (Str.trim (productName (page st)))
            (Str.parseFloat (unitPrice (page st)))
            (Str.parseInt (quantity (page st))).

(** The number of [addProduct] calls of the session [es] from [st] that
    the guard rejects. *)
Fixpoint rejections (st : State) (es : list Event) : nat :=
  match es with
  | [] => O
  | e :: es' =>
      (match e with
       | AddProduct _ => if formRejected st then 1 else 0
       | _ => 0
       end + rejections (handle st e) es')%nat
  end.

(** A print job taken in Detailed, every row with its unit price shown. *)
Definition detailedJob (j : bool * Page) : bool :=
  negb (fst j) && forallb priceShown (quotationTableBody (snd j)).

(** The view controls of the page [pg] are the ones of [markup] in the
    view mode [summary]: the unit-price header with [hidden] added at the
    end in Summary, the footer label cells spanning 3 or 4 columns, and the
    label of the button. *)
Definition viewControls (markup : Page) (summary : bool) (pg : Page) : Prop :=
  headerPrice pg =
    (if summary then headerPrice markup ++ ["hidden"] else headerPrice markup)
  /\ tableFooterCells pg =
     map (fun _ => if summary then 3 else 4) (tableFooterCells markup)
  /\ summaryButton pg =
     (if summary then "Exit Summary View (Show Details)"
      else "Toggle Summary View (Show Totals Only)").


(** ** Numbers *)

Example VAT_RATE_bits : VAT_RATE = S754_finite false 0x170A3D70A3D70A (-55).
Proof. reflexivity. Qed.

Example parseFloat_examples :
  Str.parseFloat "10" = Num.of_Z 10
  /\ Str.parseFloat " 85000.00 LKR" = Num.of_Z 85000
  /\ Str.parseFloat ".5e1" = Num.of_Z 5
  /\ Str.parseFloat "-5" = Num.of_decimal true 5 0
  /\ Str.parseFloat "0.18" = VAT_RATE
  /\ Str.parseFloat "abc" = Num.NaN
  /\ Str.parseFloat "" = Num.NaN
  /\ Str.parseFloat "Infinity" = Num.Infinity
  /\ Str.parseFloat "1e309" = Num.Infinity.
Proof. vm_compute. repeat split. Qed.

Example parseInt_examples :
  Str.parseInt "1" = Num.of_Z 1
  /\ Str.parseInt "12px" = Num.of_Z 12
  /\ Str.parseInt "1.9" = Num.of_Z 1
  /\ Str.parseInt "0" = Num.zero
  /\ Str.parseInt "" = Num.NaN
  /\ Str.parseInt "Infinity" = Num.NaN.
Proof. vm_compute. repeat split. Qed.

Example trim_examples :
  Str.trim "  ERP System  " = "ERP System" /\ Str.trim "   " = "".
Proof. vm_compute. split; reflexivity. Qed.

Lemma rejected_iff (n : string) (p q : Num.Number) :
  rejected n p q =
  negb (negb (String.eqb n "") && Num.ltb Num.zero p && Num.ltb Num.zero q).
Proof.
  unfold rejected.
  destruct (String.eqb n ""); [reflexivity|].
  destruct p as [[]|[]| |[] mp ep]; try reflexivity;
    destruct q as [[]|[]| |[] mq eq]; reflexivity.
Qed.

(** ** Totals *)

Lemma bigsum_ext (n : nat) (f g : nat -> Num.Number) :
  (forall i, (i < n)%nat -> f i = g i) -> bigsum n f = bigsum n g.
Proof.
  induction n as [|n IH]; intros H; simpl.
  - reflexivity.
  - rewrite IH, H by auto with arith. reflexivity.
Qed.

Lemma reduce_snoc (ps : list Product) (p : Product) (acc : Num.Number) :
  fold_left (fun acc p => Num.add acc (Num.mul (price p) (qty p))) (ps ++ [p]) acc =
  Num.add (fold_left (fun acc p => Num.add acc (Num.mul (price p) (qty p))) ps acc)
          (lineTotal p).
Proof. rewrite fold_left_app. reflexivity. Qed.

Lemma sumLineTotals_snoc (ps : list Product) (p : Product) :
  sumLineTotals (ps ++ [p]) = Num.add (sumLineTotals ps) (lineTotal p).
Proof.
  unfold sumLineTotals. rewrite length_app, Nat.add_comm. simpl.
  f_equal.
  - apply bigsum_ext. intros i Hi. unfold lineTotalAt.
    rewrite nth_error_app1 by exact Hi. reflexivity.
  - unfold lineTotalAt. rewrite nth_error_app2, Nat.sub_diag by auto with arith.
    reflexivity.
Qed.

Lemma subtotal_is_sum (ps : list Product) :
  subtotal (computeTotals ps) = sumLineTotals ps.
Proof.
  unfold computeTotals; simpl.
  induction ps as [|p ps IH] using rev_ind.
  - reflexivity.
  - rewrite reduce_snoc, sumLineTotals_snoc, IH. reflexivity.
Qed.

(** C1. For every item list, [calculateTotals] computes the subtotal as the
    sum of price times quantity over the items, the VAT as the subtotal
    times 0.18 and the grand total as subtotal plus VAT, and hands the three
    Numbers to the formatter as computed, no rounding step in between; on
    the scenario's three items the figures are 255000, 45900 and 300900. *)
Theorem calculateTotals_figures :
  (forall ps : list Product,
      subtotal (computeTotals ps) = sumLineTotals ps
      /\ vatAmountOf (computeTotals ps) = Num.mul (sumLineTotals ps) (Num.of_decimal false 18 (-2))
      /\ grandTotalOf (computeTotals ps) =
         Num.add (sumLineTotals ps) (Num.mul (sumLineTotals ps) (Num.of_decimal false 18 (-2))))
  /\ (forall st : State,
         let t := computeTotals (products st) in
         let pg := page (calculateTotals st) in
         subTotal pg = Currency (subtotal t)
         /\ vatAmount pg = Currency (vatAmountOf t)
         /\ grandTotal pg = Currency (grandTotalOf t)
         /\ products (calculateTotals st) = products st)
  /\ computeTotals scenarioItems =
     mkTotals (Num.of_Z 255000) (Num.of_Z 45900) (Num.of_Z 300900).
Proof.
  split; [|split].
  - intros ps. rewrite <- subtotal_is_sum. repeat split.
  - intros st. repeat split.
  - vm_compute. reflexivity.
Qed.

(** ** Adding an item *)

Lemma addProduct_rejected (now : Z) (st : State) :
  rejected (Str.trim (productName (page st)))
           (Str.parseFloat (unitPrice (page st)))
           (Str.parseInt (quantity (page st))) = true ->
  addProduct now st = (Undefined, logError st).
Proof. intros H. unfold addProduct. rewrite H. reflexivity. Qed.

Lemma addProduct_accepted (now : Z) (st : State) :
  rejected (Str.trim (productName (page st)))
           (Str.parseFloat (unitPrice (page st)))
           (Str.parseInt (quantity (page st))) = false ->
  products (snd (addProduct now st)) =
    products st ++ [mkProduct now (Str.trim (productName (page st)))
                              (Str.parseFloat (unitPrice (page st)))
                              (Str.parseInt (quantity (page st)))]
  /\ console (snd (addProduct now st)) = console st.
Proof. intros H. unfold addProduct. rewrite H. split; reflexivity. Qed.

(** C2. [addItem] with a blank name, or with a unit price or a quantity
    that is not a number or is not above 0, puts the validation message on
    the console, creates no item and leaves the items, the view mode and
    everything shown on the page as they were; so do [addItem("", 10, 1)],
    [addItem("x", 0, 1)], [addItem("x", 10, 0)] and [addItem("x", -5, 1)]. *)
Theorem addItem_rejects_invalid (st : State) (now : Z) :
  (forall n p q : string,
      Str.trim n = ""
      \/ Num.isNaN (Str.parseFloat p) = true \/ Num.leb (Str.parseFloat p) Num.zero = true
      \/ Num.isNaN (Str.parseInt q) = true \/ Num.leb (Str.parseInt q) Num.zero = true ->
      addItem n p q now st = (Undefined, logError (fill n p q st))
      /\ products (snd (addItem n p q now st)) = products st
      /\ isSummaryMode (snd (addItem n p q now st)) = isSummaryMode st
      /\ quotationTableBody (page (snd (addItem n p q now st))) = quotationTableBody (page st)
      /\ console (snd (addItem n p q now st)) = console st ++ [validationMessage])
  /\ snd (addItem "" "10" "1" now st) = logError (fill "" "10" "1" st)
  /\ snd (addItem "x" "0" "1" now st) = logError (fill "x" "0" "1" st)
  /\ snd (addItem "x" "10" "0" now st) = logError (fill "x" "10" "0" st)
  /\ snd (addItem "x" "-5" "1" now st) = logError (fill "x" "-5" "1" st).
Proof.
  split.
  - intros n p q H.
    assert (R : rejected (Str.trim n) (Str.parseFloat p) (Str.parseInt q) = true).
    { unfold rejected.
      destruct H as [H|[H|[H|[H|H]]]]; rewrite H; simpl;
        rewrite ?orb_true_r; reflexivity. }
    unfold addItem. rewrite addProduct_rejected by exact R.
    repeat split.
  - repeat split.
Qed.

Lemma addItem_rejects_invalid_witness :
  let st := initial samplePage (fun _ => 0) in
  products (snd (addItem "   " "abc" "1" 7 st)) = products st.
Proof.
  intros st.
  apply (proj1 (addItem_rejects_invalid st 7) "   " "abc" "1").
  left. reflexivity.
Defined.

(** C5, as stated, fails: the text [Infinity] parses to a Number that is
    not finite, the guard lets it through and an item with an infinite unit
    price is appended, with nothing on the console. *)
Lemma addItem_accepts_Infinity :
  let st := initial samplePage (fun _ => 0) in
  let st' := snd (addItem "x" "Infinity" "1" 1000 st) in
  Num.isFinite (Str.parseFloat "Infinity") = false
  /\ products st' = products st ++ [mkProduct 1000 "x" Num.Infinity (Num.of_Z 1)]
  /\ console st' = console st.
Proof. vm_compute. repeat split. Qed.

(** C5, amended.  [addItem] creates an item only if the unit price parses
    to a Number that is not NaN and is above 0, positive infinity included;
    a price that is NaN or not above 0 (negative infinity too) is rejected
    with the validation message and no item is created.  Together with a
    name that is not blank and a quantity above 0, a price above 0 is
    enough for the item to be appended. *)
Theorem addItem_price_gate (st : State) (n p q : string) (now : Z) :
  let st' := snd (addItem n p q now st) in
  (products st' <> products st ->
     Num.isNaN (Str.parseFloat p) = false /\ Num.ltb Num.zero (Str.parseFloat p) = true)
  /\ (Num.ltb Num.zero (Str.parseFloat p) = false ->
        st' = logError (fill n p q st) /\ products st' = products st)
  /\ (Str.trim n <> "" ->
      Num.ltb Num.zero (Str.parseFloat p) = true ->
      Num.ltb Num.zero (Str.parseInt q) = true ->
        products st' =
          products st ++ [mkProduct now (Str.trim n) (Str.parseFloat p) (Str.parseInt q)]
        /\ console st' = console st).
Proof.
  intros st'. subst st'. unfold addItem.
  pose proof (rejected_iff (Str.trim n) (Str.parseFloat p) (Str.parseInt q)) as R.
  pose proof (addProduct_rejected now (fill n p q st)) as Hrej.
  pose proof (addProduct_accepted now (fill n p q st)) as Hacc.
  cbn [fill with_page page productName unitPrice quantity] in Hrej, Hacc.
  split; [|split].
  - intros Hne.
    destruct (rejected (Str.trim n) (Str.parseFloat p) (Str.parseInt q)) eqn:E.
    + rewrite Hrej in Hne by reflexivity. exfalso. apply Hne. reflexivity.
    + symmetry in R. apply negb_false_iff in R.
      apply andb_true_iff in R. destruct R as [R _].
      apply andb_true_iff in R. destruct R as [_ R].
      split; [|exact R].
      destruct (Str.parseFloat p); try reflexivity; discriminate R.
  - intros Hp. rewrite Hp, andb_false_r in R. simpl in R.
    rewrite Hrej by exact R. split; reflexivity.
  - intros Hn Hp Hq. rewrite Hp, Hq in R.
    destruct (String.eqb_spec (Str.trim n) ""); [contradiction|].
    simpl in R. destruct (Hacc R) as [H1 H2]. split; assumption.
Qed.

Lemma addItem_price_gate_witness :
  let st := initial samplePage (fun _ => 0) in
  products (snd (addItem "x" "-5" "1" 1000 st)) = products st.
Proof.
  intros st.
  apply (proj1 (proj2 (addItem_price_gate st "x" "-5" "1" 1000))).
  reflexivity.
Defined.

(** A successful [addProduct] puts the new item last: the list is the old
    one followed by the item. *)
Lemma addProduct_appends (now : Z) (st : State) :
  snd (addProduct now st) = logError st
  \/ exists p, id p = now /\ products (snd (addProduct now st)) = products st ++ [p].
Proof.
  destruct (rejected (Str.trim (productName (page st)))
                     (Str.parseFloat (unitPrice (page st)))
                     (Str.parseInt (quantity (page st)))) eqn:E.
  - left. rewrite addProduct_rejected by exact E. reflexivity.
  - right. destruct (addProduct_accepted now st E) as [H _].
    eexists. split; [|exact H]. reflexivity.
Qed.

(** With a reading of the clock that no item of the store carries, the
    identifiers stay pairwise distinct. *)
Lemma addProduct_fresh (now : Z) (st : State) :
  (forall p, In p (products st) -> id p <> now) ->
  NoDup (map id (products st)) ->
  NoDup (map id (products (snd (addProduct now st)))).
Proof.
  intros Hnew Hnd.
  destruct (addProduct_appends now st) as [E|[p [Hp E]]]; rewrite E.
  - exact Hnd.
  - rewrite map_app. cbn [map].
    apply (Permutation.Permutation_NoDup (Permutation.Permutation_cons_append _ _)).
    constructor; [|exact Hnd].
    rewrite Hp. intros Hin. apply in_map_iff in Hin.
    destruct Hin as [p' [Hid Hin]]. exact (Hnew p' Hin Hid).
Qed.

(** C3 fails on the code.  The identifier is the reading of [Date.now()]
    alone: two items added within the same millisecond get the same
    identifier, and an item added twelve milliseconds after the start gets
    the identifier of the twelfth demonstration item.  Both sessions end in
    a store whose identifiers are not pairwise distinct, though each new
    item is appended last. *)
Theorem addProduct_identifiers_collide :
  let start := initial samplePage (fun _ => 0) in
  let twice :=
    run start [Fill "a" "10" "1"; AddProduct 1000; Fill "b" "20" "2"; AddProduct 1000] in
  let early := run start [Fill "a" "10" "1"; AddProduct 12] in
  map id (products twice) = [1; 2; 3; 4; 5; 6; 7; 8; 9; 10; 11; 12; 1000; 1000]
  /\ map name (skipn 12 (products twice)) = ["a"; "b"]
  /\ ~ NoDup (map id (products twice))
  /\ map id (products early) = [1; 2; 3; 4; 5; 6; 7; 8; 9; 10; 11; 12; 12]
  /\ ~ NoDup (map id (products early)).
Proof.
  assert (D : forall (l : list Z) (x : Z), ~ NoDup (l ++ [x; x])).
  { intros l x H. apply NoDup_remove_2 in H. apply H.
    apply in_or_app. right. left. reflexivity. }
  cbv zeta. split; [vm_compute; reflexivity|].
  split; [vm_compute; reflexivity|].
  split.
  - replace (map id (products _)) with ([1; 2; 3; 4; 5; 6; 7; 8; 9; 10; 11; 12] ++ [1000; 1000])
      by (vm_compute; reflexivity).
    apply D.
  - split; [vm_compute; reflexivity|].
    replace (map id (products _)) with ([1; 2; 3; 4; 5; 6; 7; 8; 9; 10; 11] ++ [12; 12])
      by (vm_compute; reflexivity).
    apply D.
Qed.

(** ** The page follows the store *)

Lemma synced_iff (st : State) :
  synced st <->
  quotationTableBody (page st) = forEach (isSummaryMode st) 0 (products st)
  /\ subTotal (page st) = Currency (subtotal (computeTotals (products st)))
  /\ vatAmount (page st) = Currency (vatAmountOf (computeTotals (products st)))
  /\ grandTotal (page st) = Currency (grandTotalOf (computeTotals (products st))).
Proof.
  destruct st as [ps m [a b c rows s v g btn hp fc] con pr].
  unfold synced, renderProducts, calculateTotals, with_page. cbn.
  split.
  - intros H. injection H as H1 H2 H3 H4. auto.
  - intros (H1 & H2 & H3 & H4). rewrite <- H1, <- H2, <- H3, <- H4. reflexivity.
Qed.

Lemma renderProducts_synced (st : State) : synced (renderProducts st).
Proof. apply synced_iff. repeat split. Qed.

Lemma renderProducts_store (st : State) :
  products (renderProducts st) = products st
  /\ isSummaryMode (renderProducts st) = isSummaryMode st.
Proof. split; reflexivity. Qed.

Lemma toggleSummaryView_synced (st : State) : synced (toggleSummaryView st).
Proof. unfold toggleSummaryView. apply renderProducts_synced. Qed.

Lemma handle_synced (st : State) (e : Event) : synced st -> synced (handle st e).
Proof.
  intros H. destruct e as [n p q|now|i| | |]; cbn [handle].
  - apply synced_iff in H. apply synced_iff. exact H.
  - destruct (addProduct_appends now st) as [E|_].
    + rewrite E. apply synced_iff in H. apply synced_iff. exact H.
    + unfold addProduct.
      destruct (rejected _ _ _).
      * apply synced_iff in H. apply synced_iff. exact H.
      * apply renderProducts_synced.
  - apply renderProducts_synced.
  - apply toggleSummaryView_synced.
  - unfold printQuotation. destruct (isSummaryMode st).
    + pose proof (toggleSummaryView_synced st) as T.
      apply synced_iff in T. apply synced_iff. exact T.
    + apply synced_iff in H. apply synced_iff. exact H.
  - apply renderProducts_synced.
Qed.

Lemma run_synced (es : list Event) (st : State) : synced st -> synced (run st es).
Proof.
  revert st. induction es as [|e es IH]; intros st H; simpl.
  - exact H.
  - apply IH, handle_synced, H.
Qed.

Lemma session_synced (markup : Page) (clock : Z -> Z) (es : list Event) :
  synced (run (initial markup clock) es).
Proof. apply run_synced, renderProducts_synced. Qed.

(** ** Removing an item *)

Lemma filter_absent (i : Z) (ps : list Product) :
  present i ps = false -> filter (fun p => negb (Z.eqb (id p) i)) ps = ps.
Proof.
  induction ps as [|p ps IH]; simpl; intros H.
  - reflexivity.
  - apply orb_false_iff in H. destruct H as [Hp Hps].
    rewrite Hp. simpl. rewrite IH by exact Hps. reflexivity.
Qed.

Lemma filter_removes (i : Z) (ps : list Product) :
  present i (filter (fun p => negb (Z.eqb (id p) i)) ps) = false.
Proof.
  induction ps as [|p ps IH]; simpl.
  - reflexivity.
  - destruct (Z.eqb (id p) i) eqn:E; simpl.
    + exact IH.
    + rewrite E, IH. reflexivity.
Qed.

Lemma filter_shrinks (i : Z) (ps : list Product) :
  present i ps = true ->
  (List.length (filter (fun p => negb (Z.eqb (id p) i)) ps) < List.length ps)%nat.
Proof.
  induction ps as [|p ps IH]; simpl; intros H.
  - discriminate H.
  - destruct (Z.eqb (id p) i) eqn:E; simpl.
    + pose proof (filter_length_le (fun p => negb (Z.eqb (id p) i)) ps). lia.
    + apply IH in H. lia.
Qed.

Lemma deleteProduct_again (i : Z) (st : State) :
  snd (deleteProduct i (snd (deleteProduct i st))) = snd (deleteProduct i st).
Proof.
  unfold deleteProduct. cbn [snd].
  set (kept := filter (fun p => negb (Z.eqb (id p) i)) (products st)).
  change (products (renderProducts (with_products kept st))) with kept.
  assert (E : filter (fun p => negb (Z.eqb (id p) i)) kept = kept)
    by (apply filter_absent, filter_removes).
  rewrite E.
  replace (with_products kept (renderProducts (with_products kept st)))
    with (renderProducts (with_products kept st)) by reflexivity.
  apply renderProducts_synced.
Qed.

(** C4, as stated, fails: [deleteProduct] has no [return]; where the item
    is present and is removed, the call still yields [undefined], not
    [true]. *)
Lemma removeItem_returns_no_boolean :
  let st := initial samplePage (fun _ => 0) in
  present 1 (products st) = true
  /\ present 1 (products (snd (removeItem 1 st))) = false
  /\ fst (removeItem 1 st) <> Boolean true.
Proof. vm_compute. repeat split. discriminate. Qed.

(** C4, amended.  [removeItem(id)] returns no value.  It keeps exactly the
    items whose identifier differs from [id], in their order, and leaves
    the view mode alone: the store shrinks when an item matched, and when
    none matched the items are unchanged (with a page that showed the
    store, the whole state is).  A second call with the same [id] changes
    nothing any more. *)
Theorem removeItem_effect (st : State) (i : Z) :
  let st' := snd (removeItem i st) in
  fst (removeItem i st) = Undefined
  /\ products st' = filter (fun p => negb (Z.eqb (id p) i)) (products st)
  /\ present i (products st') = false
  /\ isSummaryMode st' = isSummaryMode st
  /\ (present i (products st) = true ->
        (List.length (products st') < List.length (products st))%nat)
  /\ (present i (products st) = false ->
        products st' = products st /\ (synced st -> st' = st))
  /\ removeItem i st' = (Undefined, st').
Proof.
  cbv zeta. unfold removeItem, deleteProduct. cbn [fst snd].
  split; [reflexivity|].
  split; [reflexivity|].
  split; [apply filter_removes|].
  split; [reflexivity|].
  split; [apply filter_shrinks|].
  split.
  - intros H. rewrite filter_absent by exact H.
    replace (with_products (products st) st) with st by (destruct st; reflexivity).
    split; [reflexivity|]. intros S. exact S.
  - f_equal. apply deleteProduct_again.
Qed.

Lemma removeItem_effect_witness :
  let st := initial samplePage (fun _ => 0) in
  snd (removeItem 99 st) = st
  /\ (List.length (products (snd (removeItem 4 st))) < List.length (products st))%nat.
Proof.
  intros st.
  pose proof (removeItem_effect st 99) as H99.
  pose proof (removeItem_effect st 4) as H4.
  split.
  - apply (proj1 (proj2 (proj2 (proj2 (proj2 (proj2 H99)))))).
    + reflexivity.
    + vm_compute. reflexivity.
  - apply (proj1 (proj2 (proj2 (proj2 (proj2 H4))))). reflexivity.
Defined.

(** ** Rows *)

Lemma forEach_length (m : bool) (ps : list Product) (i : nat) :
  List.length (forEach m i ps) = List.length ps.
Proof.
  revert i. induction ps as [|p ps IH]; intros i; simpl.
  - reflexivity.
  - rewrite IH. reflexivity.
Qed.

Lemma forEach_indexCell (m : bool) (ps : list Product) (i : nat) :
  map indexCell (forEach m i ps) = seq (i + 1) (List.length ps).
Proof.
  revert i. induction ps as [|p ps IH]; intros i; simpl.
  - reflexivity.
  - rewrite IH. reflexivity.
Qed.

Lemma forEach_bound (m : bool) (ps : list Product) (i : nat) :
  map removeButton (forEach m i ps) = map id ps
  /\ map nameCell (forEach m i ps) = map name ps
  /\ map totalCell (forEach m i ps) = map (fun p => Currency (lineTotal p)) ps.
Proof.
  revert i. induction ps as [|p ps IH]; intros i; simpl.
  - repeat split.
  - destruct (IH (S i)) as (H1 & H2 & H3). rewrite H1, H2, H3. repeat split.
Qed.

Lemma pageBreak_renderRow (m : bool) (p : Product) (i : nat) :
  pageBreak (renderRow m p i) = Nat.eqb i 9.
Proof.
  unfold pageBreak, renderRow. cbn [className].
  destruct (Nat.eqb i 9); reflexivity.
Qed.

Lemma forEach_pageBreak (m : bool) (ps : list Product) (i : nat) :
  map pageBreak (forEach m i ps) = map (fun k => Nat.eqb k 9) (seq i (List.length ps)).
Proof.
  revert i. induction ps as [|p ps IH]; intros i; simpl.
  - reflexivity.
  - rewrite IH, pageBreak_renderRow. reflexivity.
Qed.

Lemma forEach_past_nine (m : bool) (ps : list Product) (i : nat) :
  (9 < i)%nat -> filter pageBreak (forEach m i ps) = [].
Proof.
  revert i. induction ps as [|p ps IH]; intros i Hi; simpl.
  - reflexivity.
  - rewrite pageBreak_renderRow.
    destruct (Nat.eqb_spec i 9) as [E|_]; [lia|].
    apply IH. lia.
Qed.

Lemma forEach_marked (m : bool) (ps : list Product) (i k : nat) :
  (i + k = 9)%nat ->
  filter pageBreak (forEach m i ps) =
  match nth_error ps k with
  | Some p => [renderRow m p 9]
  | None => []
  end.
Proof.
  revert i k. induction ps as [|p ps IH]; intros i k Hik.
  - destruct k; reflexivity.
  - cbn [forEach filter]. rewrite pageBreak_renderRow.
    destruct (Nat.eqb_spec i 9) as [E|N].
    + subst i. assert (k = 0)%nat as -> by lia.
      rewrite forEach_past_nine by lia. reflexivity.
    + destruct k as [|k]; [lia|].
      cbn [nth_error]. apply IH. lia.
Qed.

(** C7. The table body rendered from a store of n items has n rows; their
    indices are 1, 2, ..., n and the k-th row shows and is bound to the
    k-th item of the store, whatever the view mode.  After any sequence of
    actions of a session the page holds exactly these rows for the current
    store.  The index is computed from the position in the list: an item
    stores none. *)
Theorem renderProducts_row_numbering :
  (forall (m : bool) (ps : list Product),
      let rows := forEach m 0 ps in
      List.length rows = List.length ps
      /\ map indexCell rows = seq 1 (List.length ps)
      /\ map removeButton rows = map id ps
      /\ map nameCell rows = map name ps)
  /\ (forall (markup : Page) (clock : Z -> Z) (es : list Event),
         let st := run (initial markup clock) es in
         let rows := quotationTableBody (page st) in
         rows = forEach (isSummaryMode st) 0 (products st)
         /\ List.length rows = List.length (products st)
         /\ map indexCell rows = seq 1 (List.length (products st))
         /\ map removeButton rows = map id (products st)).
Proof.
  assert (R : forall (m : bool) (ps : list Product),
             List.length (forEach m 0 ps) = List.length ps
             /\ map indexCell (forEach m 0 ps) = seq 1 (List.length ps)
             /\ map removeButton (forEach m 0 ps) = map id ps
             /\ map nameCell (forEach m 0 ps) = map name ps).
  { intros m ps. destruct (forEach_bound m ps 0) as (H1 & H2 & _).
    repeat split; auto using forEach_length.
    apply (forEach_indexCell m ps 0). }
  split; [exact R|].
  intros markup clock es st rows.
  pose proof (session_synced markup clock es) as S.
  apply synced_iff in S. destruct S as [S _].
  fold st in S. fold rows in S.
  destruct (R (isSummaryMode st) (products st)) as (H1 & H2 & H3 & _).
  rewrite S. auto.
Qed.

(** C8. In the rendered table the row at 0-based index 9 carries the
    page-break marker and no other row does: the marked rows are the tenth
    row alone when the store has ten items or more, none otherwise.  The
    twelve items the script starts with give twelve rows, one of them
    marked, the row numbered 10; and so for every state of a session. *)
Theorem renderProducts_page_break :
  (forall (m : bool) (ps : list Product),
      map pageBreak (forEach m 0 ps) = map (fun k => Nat.eqb k 9) (seq 0 (List.length ps))
      /\ filter pageBreak (forEach m 0 ps) =
         match nth_error ps 9 with
         | Some p => [renderRow m p 9]
         | None => []
         end)
  /\ (forall (markup : Page) (clock : Z -> Z),
         let rows := quotationTableBody (page (initial markup clock)) in
         List.length rows = 12%nat
         /\ map indexCell (filter pageBreak rows) = [10%nat])
  /\ (forall (markup : Page) (clock : Z -> Z) (es : list Event),
         let st := run (initial markup clock) es in
         map pageBreak (quotationTableBody (page st)) =
         map (fun k => Nat.eqb k 9) (seq 0 (List.length (products st)))).
Proof.
  split; [|split].
  - intros m ps. split.
    + apply forEach_pageBreak.
    + apply (forEach_marked m ps 0 9). reflexivity.
  - intros markup clock. split; reflexivity.
  - intros markup clock es st.
    pose proof (session_synced markup clock es) as S.
    apply synced_iff in S. destruct S as [S _]. fold st in S.
    rewrite S. apply forEach_pageBreak.
Qed.

(** ** View mode *)

Lemma classList_add_contains (tok : string) (l : list string) :
  classList_contains tok (classList_add tok l) = true.
Proof.
  unfold classList_add. destruct (classList_contains tok l) eqn:E.
  - exact E.
  - unfold classList_contains. rewrite existsb_app. simpl.
    rewrite String.eqb_refl, orb_true_r. reflexivity.
Qed.

Lemma classList_remove_contains (tok : string) (l : list string) :
  classList_contains tok (classList_remove tok l) = false.
Proof.
  unfold classList_contains, classList_remove.
  induction l as [|t l IH]; simpl.
  - reflexivity.
  - destruct (String.eqb tok t) eqn:E; simpl.
    + exact IH.
    + rewrite E, IH. reflexivity.
Qed.

Lemma colspan_all (n : Z) (l : list Z) :
  forallb (Z.eqb n) (map (fun _ => n) l) = true.
Proof.
  induction l as [|c l IH]; simpl.
  - reflexivity.
  - rewrite Z.eqb_refl, IH. reflexivity.
Qed.

Lemma forEach_price_column (m : bool) (ps : list Product) (i : nat) :
  forallb (if m then priceSuppressed else priceShown) (forEach m i ps) = true.
Proof.
  revert i. induction ps as [|p ps IH]; intros i; cbn [forEach forallb].
  - reflexivity.
  - rewrite IH, andb_true_r. destruct m; reflexivity.
Qed.

Lemma forEach_rowContent (m m' : bool) (ps : list Product) (i : nat) :
  map rowContent (forEach m i ps) = map rowContent (forEach m' i ps).
Proof.
  revert i. induction ps as [|p ps IH]; intros i; cbn [forEach map].
  - reflexivity.
  - rewrite IH. reflexivity.
Qed.

Lemma toggleSummaryView_effects (st : State) :
  isSummaryMode (toggleSummaryView st) = negb (isSummaryMode st)
  /\ modeEffects (negb (isSummaryMode st)) (page (toggleSummaryView st)) = true.
Proof.
  split; [reflexivity|].
  unfold toggleSummaryView, modeEffects, summaryEffects, detailedEffects.
  destruct (isSummaryMode st) eqn:E;
    cbn [negb isSummaryMode with_isSummaryMode with_page page renderProducts
         calculateTotals headerPrice quotationTableBody tableFooterCells products].
  - rewrite classList_remove_contains, (forEach_price_column false), (colspan_all 4).
    reflexivity.
  - rewrite classList_add_contains, (forEach_price_column true).
    change (4 - 1) with 3. rewrite (colspan_all 3). reflexivity.
Qed.





Lemma classList_add_absent (tok : string) (l : list string) :
  classList_contains tok l = false -> classList_add tok l = l ++ [tok].
Proof. intros H. unfold classList_add. rewrite H. reflexivity. Qed.

Lemma classList_remove_added (tok : string) (l : list string) :
  classList_contains tok l = false -> classList_remove tok (l ++ [tok]) = l.
Proof.
  intros H. unfold classList_remove. rewrite filter_app. cbn [filter].
  rewrite String.eqb_refl. cbn [negb]. rewrite app_nil_r.
  induction l as [|t l IH]; [reflexivity|].
  cbn [classList_contains existsb] in H. apply orb_false_iff in H.
  destruct H as [Ht H]. cbn [filter]. rewrite Ht. cbn [negb].
  rewrite IH by exact H. reflexivity.
Qed.

Lemma colspan_same (n : Z) (l : list Z) :
  forallb (Z.eqb n) l = true -> map (fun _ => n) l = l.
Proof.
  induction l as [|c l IH]; cbn [forallb map]; intros H.
  - reflexivity.
  - apply andb_true_iff in H. destruct H as [Hc H].
    apply Z.eqb_eq in Hc. rewrite IH by exact H. rewrite Hc. reflexivity.
Qed.








(** ** Printing *)

(** C6. [printQuotation] called in Summary switches to Detailed first and
    only then calls the print collaborator: the job it records is taken in
    Detailed, on the page with the Detailed effects, and the state is
    Detailed afterwards.  Called in Detailed it changes neither the view
    mode nor the store nor the page, and only hands the page to the
    collaborator.  In every case exactly one job is added, taken in
    Detailed, and a second call makes no transition. *)
Theorem printQuotation_prints_detailed (st : State) :
  let st' := printQuotation st in
  isSummaryMode st' = false
  /\ printed st' = printed st ++ [(false, page st')]
  /\ (if isSummaryMode st
      then st' = window_print (toggleSummaryView st)
           /\ detailedEffects (page st') = true
      else st' = window_print st
           /\ products st' = products st
           /\ page st' = page st
           /\ console st' = console st)
  /\ printQuotation st' = window_print st'.
Proof.
  cbv zeta. unfold printQuotation.
  destruct (isSummaryMode st) eqn:E.
  - destruct (toggleSummaryView_effects st) as [M Eff].
    rewrite E in M, Eff. cbn [negb] in M, Eff.
    cbn [isSummaryMode window_print printed page].
    rewrite M. repeat split. exact Eff.
  - cbn [isSummaryMode window_print printed page products console].
    rewrite E. repeat split.
Qed.

(** ** What a toggle leaves alone *)

(** C10. [toggleSummaryView] does not touch the items: the list is the
    same, hence so are the subtotal, the VAT and the grand total computed
    from it, and these are the figures on the page after the toggle.  The
    form, the console and the print jobs are unchanged, and each row is
    rendered as before except for the class of its unit-price cell.  In a
    session the three figures and the row contents shown after the toggle
    are those shown before it. *)
Theorem toggleSummaryView_frame :
  (forall st : State,
      let st' := toggleSummaryView st in
      products st' = products st
      /\ computeTotals (products st') = computeTotals (products st)
      /\ subTotal (page st') = Currency (subtotal (computeTotals (products st)))
      /\ vatAmount (page st') = Currency (vatAmountOf (computeTotals (products st)))
      /\ grandTotal (page st') = Currency (grandTotalOf (computeTotals (products st)))
      /\ productName (page st') = productName (page st)
      /\ unitPrice (page st') = unitPrice (page st)
      /\ quantity (page st') = quantity (page st)
      /\ console st' = console st
      /\ printed st' = printed st
      /\ map rowContent (quotationTableBody (page st')) =
         map rowContent (forEach (isSummaryMode st) 0 (products st)))
  /\ (forall (markup : Page) (clock : Z -> Z) (es : list Event),
         let st := run (initial markup clock) es in
         let st' := toggleSummaryView st in
         products st' = products st
         /\ subTotal (page st') = subTotal (page st)
         /\ vatAmount (page st') = vatAmount (page st)
         /\ grandTotal (page st') = grandTotal (page st)
         /\ map rowContent (quotationTableBody (page st')) =
            map rowContent (quotationTableBody (page st))).
Proof.
  assert (F : forall st : State,
             map rowContent (quotationTableBody (page (toggleSummaryView st))) =
             map rowContent (forEach (isSummaryMode st) 0 (products st))).
  { intros st. unfold toggleSummaryView.
    destruct (isSummaryMode st);
      cbn [negb isSummaryMode with_isSummaryMode with_page page renderProducts
           calculateTotals quotationTableBody products];
      apply forEach_rowContent. }
  split.
  - intros st st'. subst st'.
    split; [reflexivity|]. split; [reflexivity|].
    repeat (split; [unfold toggleSummaryView; destruct (isSummaryMode st); reflexivity|]).
    apply F.
  - intros markup clock es st st'.
    pose proof (session_synced markup clock es) as S.
    apply synced_iff in S. fold st in S. destruct S as (S0 & S1 & S2 & S3).
    rewrite S0, S1, S2, S3. subst st'.
    split; [reflexivity|].
    repeat (split; [unfold toggleSummaryView; destruct (isSummaryMode st); reflexivity|]).
    apply F.
Qed.

(** ** Client details *)

Lemma orElse_nonempty (s d : string) : d <> "" -> orElse s d <> "".
Proof.
  intros Hd. unfold orElse. destruct (String.eqb_spec s ""); assumption.
Qed.

(** X1. [saveClientInfo] never shows an empty client name or address and
    always shows the contact behind the prefix [Attn: ]; each of the three
    inputs that is blank once trimmed gives its placeholder, each other
    input is shown trimmed and otherwise as typed; the inputs are left as
    typed. *)
Theorem saveClientInfo_display (c : ClientPanel) :
  let c' := saveClientInfo c in
  displayClientName c' <> ""
  /\ displayClientAddress c' <> ""
  /\ (exists contact, displayClientContact c' = ("Attn: " ++ contact)%string /\ contact <> "")
  /\ (Str.trim (clientName c) = "" -> displayClientName c' = "Client Name Here")
  /\ (Str.trim (clientAddress c) = "" -> displayClientAddress c' = "Client Address Here")
  /\ (Str.trim (clientContact c) = "" ->
        displayClientContact c' = "Attn: Client Contact Info Here")
  /\ (Str.trim (clientName c) <> "" -> displayClientName c' = Str.trim (clientName c))
  /\ (Str.trim (clientAddress c) <> "" ->
        displayClientAddress c' = Str.trim (clientAddress c))
  /\ (Str.trim (clientContact c) <> "" ->
        displayClientContact c' = ("Attn: " ++ Str.trim (clientContact c))%string)
  /\ (clientName c', clientAddress c', clientContact c') =
     (clientName c, clientAddress c, clientContact c).
Proof.
  assert (K : forall s d : string, s <> "" -> orElse s d = s).
  { intros s d H. unfold orElse. destruct (String.eqb_spec s ""); [contradiction|reflexivity]. }
  cbv zeta. unfold saveClientInfo.
  cbn [displayClientName displayClientAddress displayClientContact
       clientName clientAddress clientContact].
  split; [apply orElse_nonempty; discriminate|].
  split; [apply orElse_nonempty; discriminate|].
  split.
  { eexists. split; [reflexivity|]. apply orElse_nonempty. discriminate. }
  split; [intros H; rewrite H; reflexivity|].
  split; [intros H; rewrite H; reflexivity|].
  split; [intros H; rewrite H; reflexivity|].
  split; [intros H; apply K, H|].
  split; [intros H; apply K, H|].
  split; [intros H; rewrite K by exact H; reflexivity|].
  reflexivity.
Qed.

Lemma saveClientInfo_display_witness :
  let c := saveClientInfo (mkClientPanel "   " " Colombo 7 " " 011 2345678 " "" "" "") in
  displayClientName c = "Client Name Here"
  /\ displayClientAddress c = "Colombo 7"
  /\ displayClientContact c = "Attn: 011 2345678".
Proof.
  pose proof (saveClientInfo_display
                (mkClientPanel "   " " Colombo 7 " " 011 2345678 " "" "" "")) as H.
  destruct H as (_ & _ & _ & Hn & _ & _ & _ & Ha & Hc & _).
  split; [apply Hn; reflexivity|].
  split.
  - rewrite Ha by (vm_compute; discriminate). reflexivity.
  - rewrite Hc by (vm_compute; discriminate). reflexivity.
Defined.

(** ** The items of a session *)

Lemma initial_valid (markup : Page) (clock : Z -> Z) :
  forallb validItem (products (initial markup clock)) = true.
Proof. reflexivity. Qed.

Lemma formItem_valid (now : Z) (st : State) :
  formRejected st = false -> validItem (formItem now st) = true.
Proof.
  unfold formRejected, validItem, formItem. cbn [name price qty].
  rewrite rejected_iff. intros H. apply negb_false_iff in H. exact H.
Qed.

Lemma handle_valid (st : State) (e : Event) :
  forallb validItem (products st) = true ->
  forallb validItem (products (handle st e)) = true.
Proof.
  intros H. destruct e as [n p q|now|i| | |]; cbn [handle]; try exact H.
  - unfold addProduct. fold (formRejected st).
    destruct (formRejected st) eqn:E; cbn [snd].
    + exact H.
    + change (forallb validItem (products st ++ [formItem now st]) = true).
      rewrite forallb_app, H. cbn [forallb].
      rewrite formItem_valid by exact E. reflexivity.
  - change (forallb validItem
              (filter (fun p => negb (Z.eqb (id p) i)) (products st)) = true).
    rewrite forallb_forall in *. intros p Hp.
    apply filter_In in Hp. apply H, Hp.
  - unfold printQuotation. destruct (isSummaryMode st); exact H.
Qed.

Lemma run_valid (es : list Event) (st : State) :
  forallb validItem (products st) = true ->
  forallb validItem (products (run st es)) = true.
Proof.
  revert st. induction es as [|e es IH]; intros st H; simpl.
  - exact H.
  - apply IH, handle_valid, H.
Qed.

(** X2. In every state of a session every item of the store has a name
    that is not empty, a unit price above 0 and a quantity above 0: the
    demonstration items have, the guard of [addProduct] lets nothing else
    in, and no function changes an item once stored. *)
Theorem session_items_valid (markup : Page) (clock : Z -> Z) (es : list Event) :
  forall p : Product,
    In p (products (run (initial markup clock) es)) ->
    name p <> ""
    /\ Num.ltb Num.zero (price p) = true
    /\ Num.ltb Num.zero (qty p) = true
    /\ Num.isNaN (price p) = false
    /\ Num.isNaN (qty p) = false.
Proof.
  intros p Hp.
  pose proof (run_valid es _ (initial_valid markup clock)) as V.
  rewrite forallb_forall in V. specialize (V p Hp).
  unfold validItem in V.
  apply andb_true_iff in V. destruct V as [V Vq].
  apply andb_true_iff in V. destruct V as [Vn Vp].
  split.
  - intros E. rewrite E in Vn. discriminate Vn.
  - repeat split; try assumption.
    + destruct (price p); try reflexivity; discriminate Vp.
    + destruct (qty p); try reflexivity; discriminate Vq.
Qed.

Lemma session_items_valid_witness :
  Num.ltb Num.zero
    (price (formItem 77 (fill " Audit " "2500.50" "3" (initial samplePage (fun _ => 0)))))
  = true.
Proof.
  apply (session_items_valid samplePage (fun _ => 0)
           [Fill " Audit " "2500.50" "3"; AddProduct 77; DeleteProduct 2]
           (formItem 77 (fill " Audit " "2500.50" "3" (initial samplePage (fun _ => 0))))).
  vm_compute. do 11 right. left. reflexivity.
Defined.

(** ** Totals are Numbers that can be shown *)

Lemma shr_1_nonneg (mrs : shr_record) : 0 <= shr_m mrs -> 0 <= shr_m (shr_1 mrs).
Proof.
  destruct mrs as [m r s]. destruct m as [|p|p]; cbn [shr_m]; intros H.
  - simpl. lia.
  - destruct p; simpl; lia.
  - lia.
Qed.

Lemma iter_pos_nonneg (p : positive) (mrs : shr_record) :
  0 <= shr_m mrs -> 0 <= shr_m (iter_pos shr_1 p mrs).
Proof.
  revert mrs. induction p as [p IH|p IH|]; intros mrs H; simpl.
  - apply IH, IH, shr_1_nonneg, H.
  - apply IH, IH, H.
  - apply shr_1_nonneg, H.
Qed.

Lemma shr_fexp_nonneg (m e : Z) (l : location) :
  0 <= m -> 0 <= shr_m (fst (shr_fexp Num.prec Num.emax m e l)).
Proof.
  intros H. unfold shr_fexp, shr.
  assert (H0 : 0 <= shr_m (shr_record_of_loc m l)) by (destruct l as [|[]]; exact H).
  destruct (fexp _ _ _ - e); cbn [fst]; try exact H0.
  apply iter_pos_nonneg, H0.
Qed.

Lemma round_nearest_even_nonneg (m : Z) (l : location) :
  0 <= m -> 0 <= round_nearest_even m l.
Proof.
  intros H. destruct l as [|[]]; simpl; try exact H.
  - destruct (Z.even m); lia.
  - lia.
Qed.

Lemma binary_round_aux_nonneg (m e : Z) (l : location) :
  0 <= m -> nonNegative (binary_round_aux Num.prec Num.emax false m e l) = true.
Proof.
  intros H. unfold binary_round_aux.
  pose proof (shr_fexp_nonneg m e l H) as H1.
  destruct (shr_fexp Num.prec Num.emax m e l) as [mrs' e'].
  cbn [fst] in H1.
  pose proof (shr_fexp_nonneg _ e' loc_Exact
                (round_nearest_even_nonneg _ (loc_of_shr_record mrs') H1)) as H2.
  destruct (shr_fexp Num.prec Num.emax _ e' loc_Exact) as [mrs'' e''].
  cbn [fst] in H2.
  destruct (shr_m mrs'') as [|p|p].
  - reflexivity.
  - destruct (Z.leb e'' (Num.emax - Num.prec)); reflexivity.
  - lia.
Qed.

Lemma mul_positive (x y : Num.Number) :
  Num.ltb Num.zero x = true -> Num.ltb Num.zero y = true ->
  nonNegative (Num.mul x y) = true.
Proof.
  destruct x as [[]|[]| |[] mx ex]; try discriminate;
    destruct y as [[]|[]| |[] my ey]; try discriminate; intros _ _;
    try reflexivity.
  apply binary_round_aux_nonneg. lia.
Qed.

Lemma mul_VAT_RATE (x : Num.Number) :
  nonNegative x = true -> nonNegative (Num.mul x VAT_RATE) = true.
Proof.
  destruct x as [[]|[]| |[] mx ex]; try discriminate; intros _; try reflexivity.
  apply binary_round_aux_nonneg. lia.
Qed.

Lemma add_nonNegative (x y : Num.Number) :
  nonNegative x = true -> nonNegative y = true ->
  nonNegative (Num.add x y) = true.
Proof.
  destruct x as [[]|[]| |[] mx ex]; try discriminate;
    destruct y as [[]|[]| |[] my ey]; try discriminate; intros _ _;
    try reflexivity.
  unfold Num.add, SFadd. cbn [cond_Zopp].
  destruct (shl_align mx ex (Z.min ex ey)) as [mx' ex'].
  destruct (shl_align my ey (Z.min ex ey)) as [my' ey'].
  cbn [fst Z.add binary_normalize]. unfold binary_round.
  destruct (shl_align _ _ _) as [mz ez].
  apply binary_round_aux_nonneg. lia.
Qed.

Lemma reduce_nonNegative (ps : list Product) (acc : Num.Number) :
  forallb validItem ps = true -> nonNegative acc = true ->
  nonNegative
    (fold_left (fun acc p => Num.add acc (Num.mul (price p) (qty p))) ps acc) = true.
Proof.
  revert acc. induction ps as [|p ps IH]; intros acc V A; simpl.
  - exact A.
  - simpl in V. apply andb_true_iff in V. destruct V as [Vp V].
    apply IH; [exact V|].
    apply add_nonNegative; [exact A|].
    unfold validItem in Vp.
    apply andb_true_iff in Vp. destruct Vp as [Vp Vq].
    apply andb_true_iff in Vp. destruct Vp as [_ Vp].
    apply mul_positive; assumption.
Qed.

(** X3. In every state of a session the subtotal, the VAT and the grand
    total are Numbers that are neither NaN nor negative, and these are the
    Numbers on the page: the totals never show NaN or a negative amount
    (a store with an infinite price gives infinite totals). *)
Theorem session_totals_nonNegative (markup : Page) (clock : Z -> Z) (es : list Event) :
  let st := run (initial markup clock) es in
  let t := computeTotals (products st) in
  subTotal (page st) = Currency (subtotal t)
  /\ vatAmount (page st) = Currency (vatAmountOf t)
  /\ grandTotal (page st) = Currency (grandTotalOf t)
  /\ nonNegative (subtotal t) = true
  /\ nonNegative (vatAmountOf t) = true
  /\ nonNegative (grandTotalOf t) = true.
Proof.
  intros st t.
  pose proof (session_synced markup clock es) as S.
  apply synced_iff in S. fold st in S. destruct S as (_ & S1 & S2 & S3).
  pose proof (run_valid es _ (initial_valid markup clock)) as V. fold st in V.
  assert (Hs : nonNegative (subtotal t) = true)
    by (apply reduce_nonNegative; [exact V|reflexivity]).
  assert (Hv : nonNegative (vatAmountOf t) = true)
    by (apply mul_VAT_RATE, Hs).
  split; [exact S1|]. split; [exact S2|]. split; [exact S3|].
  split; [exact Hs|]. split; [exact Hv|].
  apply add_nonNegative; assumption.
Qed.

(** ** A successful add *)

Lemma addProduct_accepted_state (now : Z) (st : State) :
  formRejected st = false ->
  snd (addProduct now st) =
  renderProducts (with_products (products st ++ [formItem now st]) (fill "" "" "1" st)).
Proof.
  unfold formRejected. intros E. unfold addProduct. rewrite E. reflexivity.
Qed.

Lemma forEach_snoc (m : bool) (ps : list Product) (p : Product) (i : nat) :
  forEach m i (ps ++ [p]) = forEach m i ps ++ [renderRow m p (i + List.length ps)].
Proof.
  revert i. induction ps as [|q ps IH]; intros i; cbn [forEach app List.length].
  - rewrite Nat.add_0_r. reflexivity.
  - rewrite IH, Nat.add_succ_r. reflexivity.
Qed.

(** X4. After a successful [addProduct] the form is reset (name and price
    empty, quantity 1), so calling [addProduct] again without typing is
    rejected: a second press of the button adds nothing. *)
Theorem addProduct_resets_form (now now' : Z) (st : State) :
  formRejected st = false ->
  let st' := snd (addProduct now st) in
  productName (page st') = ""
  /\ unitPrice (page st') = ""
  /\ quantity (page st') = "1"
  /\ formRejected st' = true
  /\ addProduct now' st' = (Undefined, logError st')
  /\ products (snd (addProduct now' st')) = products st ++ [formItem now st].
Proof.
  intros E st'. subst st'. rewrite (addProduct_accepted_state now st E).
  split; [reflexivity|]. split; [reflexivity|]. split; [reflexivity|].
  split; [reflexivity|].
  split.
  - apply addProduct_rejected. reflexivity.
  - rewrite addProduct_rejected by reflexivity. reflexivity.
Qed.

Lemma addProduct_resets_form_witness :
  let st := fill "Audit" "2500.50" "3" (initial samplePage (fun _ => 0)) in
  formRejected (snd (addProduct 77 st)) = true.
Proof.
  intros st.
  apply (proj1 (proj2 (proj2 (proj2 (addProduct_resets_form 77 78 st eq_refl))))).
Defined.

(** X5. A successful [addProduct] raises the subtotal by the line total of
    the new item (one Number addition to the previous subtotal), keeps
    every row of the previous rendering and adds one row after them,
    numbered one more than the number of items before; the view mode, the
    console and the print jobs are unchanged. *)
Theorem addProduct_accepted_effect (now : Z) (st : State) :
  formRejected st = false ->
  let st' := snd (addProduct now st) in
  let item := formItem now st in
  let n := List.length (products st) in
  products st' = products st ++ [item]
  /\ subtotal (computeTotals (products st')) =
     Num.add (subtotal (computeTotals (products st))) (Num.mul (price item) (qty item))
  /\ subTotal (page st') =
     Currency (Num.add (subtotal (computeTotals (products st)))
                       (Num.mul (price item) (qty item)))
  /\ quotationTableBody (page st') =
     forEach (isSummaryMode st) 0 (products st) ++ [renderRow (isSummaryMode st) item n]
  /\ indexCell (renderRow (isSummaryMode st) item n) = S n
  /\ (isSummaryMode st', console st', printed st') =
     (isSummaryMode st, console st, printed st).
Proof.
  intros E st' item n. subst st'. rewrite (addProduct_accepted_state now st E).
  cbn [products renderProducts calculateTotals with_page with_products page
       subTotal quotationTableBody isSummaryMode console printed fill].
  fold item.
  assert (T : subtotal (computeTotals (products st ++ [item])) =
              Num.add (subtotal (computeTotals (products st)))
                      (Num.mul (price item) (qty item))).
  { unfold computeTotals. cbn [subtotal]. apply reduce_snoc. }
  split; [reflexivity|]. split; [exact T|]. split; [rewrite T; reflexivity|].
  split; [apply (forEach_snoc _ _ _ 0)|].
  split; [|reflexivity].
  cbn [renderRow indexCell]. fold n. lia.
Qed.

Lemma addProduct_accepted_effect_witness :
  let st := fill "Audit" "2500.50" "3" (initial samplePage (fun _ => 0)) in
  products (snd (addProduct 77 st)) = products st ++ [formItem 77 st].
Proof.
  intros st.
  apply (proj1 (addProduct_accepted_effect 77 st eq_refl)).
Defined.

(** ** More on removal *)

Lemma filter_count (i : Z) (ps : list Product) :
  (List.length (filter (fun p => negb (Z.eqb (id p) i)) ps)
   + List.length (filter (fun p => Z.eqb (id p) i) ps) = List.length ps)%nat.
Proof.
  induction ps as [|p ps IH]; simpl.
  - reflexivity.
  - destruct (Z.eqb (id p) i); simpl; lia.
Qed.

Lemma filter_swap (i j : Z) (ps : list Product) :
  filter (fun p => negb (Z.eqb (id p) i)) (filter (fun p => negb (Z.eqb (id p) j)) ps) =
  filter (fun p => negb (Z.eqb (id p) j)) (filter (fun p => negb (Z.eqb (id p) i)) ps).
Proof.
  induction ps as [|p ps IH]; simpl.
  - reflexivity.
  - destruct (Z.eqb (id p) j) eqn:Ej, (Z.eqb (id p) i) eqn:Ei; simpl;
      rewrite ?Ej, ?Ei; simpl; rewrite IH; reflexivity.
Qed.

Lemma renderProducts_with_products (l : list Product) (st : State) :
  renderProducts (with_products l (renderProducts st)) = renderProducts (with_products l st).
Proof. reflexivity. Qed.

Lemma forEach_removeButton_none (m : bool) (i : Z) (ps : list Product) (k : nat) :
  present i ps = false ->
  forallb (fun r => negb (Z.eqb (removeButton r) i)) (forEach m k ps) = true.
Proof.
  revert k. induction ps as [|p ps IH]; intros k H; cbn [forEach forallb].
  - reflexivity.
  - simpl in H. apply orb_false_iff in H. destruct H as [Hp H].
    cbn [renderRow removeButton]. rewrite Hp, IH by exact H. reflexivity.
Qed.

(** X6. [deleteProduct(id)] removes every item that carries the
    identifier, however many there are: the store loses exactly as many
    items as matched, the table has one row per item left, and no row is
    bound to the identifier any more. *)
Theorem deleteProduct_removes_all (i : Z) (st : State) :
  let st' := snd (deleteProduct i st) in
  (List.length (products st')
   + List.length (filter (fun p => Z.eqb (id p) i) (products st))
   = List.length (products st))%nat
  /\ List.length (quotationTableBody (page st')) = List.length (products st')
  /\ forallb (fun r => negb (Z.eqb (removeButton r) i)) (quotationTableBody (page st')) = true.
Proof.
  cbv zeta. unfold deleteProduct.
  cbn [snd products renderProducts calculateTotals with_page with_products page
       quotationTableBody isSummaryMode].
  split; [apply filter_count|].
  split; [apply forEach_length|].
  apply forEach_removeButton_none, filter_removes.
Qed.

(** X7. Two removals commute: removing [i] then [j] leaves the same state
    as removing [j] then [i]. *)
Theorem deleteProduct_commute (i j : Z) (st : State) :
  snd (deleteProduct i (snd (deleteProduct j st))) =
  snd (deleteProduct j (snd (deleteProduct i st))).
Proof.
  unfold deleteProduct. cbn [snd].
  change (products (renderProducts (with_products ?l st))) with l.
  rewrite !renderProducts_with_products.
  change (with_products ?l (with_products ?l' st)) with (with_products l st).
  rewrite filter_swap. reflexivity.
Qed.

(** X8. Adding an item at a reading of the clock that no item carries and
    then removing that identifier gives back the items there were: the
    state is the one before the add, rendered, with the form reset; when
    the page showed the store before, only the form differs. *)
Theorem addProduct_then_deleteProduct (now : Z) (st : State) :
  formRejected st = false ->
  present now (products st) = false ->
  let st' := snd (deleteProduct now (snd (addProduct now st))) in
  products st' = products st
  /\ st' = renderProducts (fill "" "" "1" st)
  /\ (synced st -> st' = fill "" "" "1" st).
Proof.
  intros E A st'.
  assert (F : filter (fun p => negb (Z.eqb (id p) now)) (products st ++ [formItem now st])
              = products st).
  { rewrite filter_app, filter_absent by exact A.
    cbn [filter formItem id]. rewrite Z.eqb_refl. cbn [negb]. apply app_nil_r. }
  assert (R : st' = renderProducts (fill "" "" "1" st)).
  { subst st'. rewrite (addProduct_accepted_state now st E).
    unfold deleteProduct. cbn [snd].
    change (products (renderProducts (with_products ?l ?s))) with l.
    rewrite renderProducts_with_products, F.
    destruct st as [ps m pg c pr]. reflexivity. }
  split; [rewrite R; reflexivity|]. split; [exact R|].
  intros S. rewrite R. apply synced_iff. apply synced_iff in S. exact S.
Qed.

Lemma addProduct_then_deleteProduct_witness :
  let st := fill "Audit" "2500.50" "3" (initial samplePage (fun _ => 0)) in
  snd (deleteProduct 77 (snd (addProduct 77 st))) = fill "" "" "1" st.
Proof.
  intros st.
  apply (proj2 (proj2 (addProduct_then_deleteProduct 77 st eq_refl eq_refl))).
  vm_compute. reflexivity.
Defined.

(** ** Identifiers *)

Lemma NoDup_filter_id (f : Product -> bool) (ps : list Product) :
  NoDup (map id ps) -> NoDup (map id (filter f ps)).
Proof.
  induction ps as [|p ps IH]; simpl; intros H.
  - constructor.
  - inversion H as [|x l Hn Hd]; subst.
    destruct (f p); simpl.
    + constructor; [|apply IH, Hd].
      intros Hin. apply Hn. apply in_map_iff in Hin.
      destruct Hin as [q [Hq Hin]]. apply filter_In in Hin.
      apply in_map_iff. exists q. split; [exact Hq|apply Hin].
    + apply IH, Hd.
Qed.

Lemma present_false (i : Z) (ps : list Product) :
  present i ps = false -> forall p, In p ps -> id p <> i.
Proof.
  intros H p Hp E. unfold present in H.
  assert (X : existsb (fun p => Z.eqb (id p) i) ps = true).
  { apply existsb_exists. exists p. split; [exact Hp|]. apply Z.eqb_eq, E. }
  rewrite X in H. discriminate H.
Qed.

Lemma handle_NoDup (st : State) (e : Event) :
  match e with
  | AddProduct now => present now (products st) = false
  | _ => True
  end ->
  NoDup (map id (products st)) -> NoDup (map id (products (handle st e))).
Proof.
  intros T H. destruct e as [n p q|now|i| | |]; cbn [handle]; try exact H.
  - apply addProduct_fresh; [|exact H]. apply present_false, T.
  - apply (NoDup_filter_id _ _ H).
  - unfold printQuotation. destruct (isSummaryMode st); exact H.
Qed.

Lemma run_NoDup (es : list Event) (st : State) :
  timely st es = true ->
  NoDup (map id (products st)) -> NoDup (map id (products (run st es))).
Proof.
  revert st. induction es as [|e es IH]; intros st T H; simpl.
  - exact H.
  - simpl in T. apply andb_true_iff in T. destruct T as [Te T].
    apply IH; [exact T|]. apply handle_NoDup; [|exact H].
    destruct e; try exact I. apply negb_true_iff, Te.
Qed.

Lemma initial_ids (markup : Page) (clock : Z -> Z) :
  map id (products (initial markup clock)) =
  map (fun i => clock i + i) [1; 2; 3; 4; 5; 6; 7; 8; 9; 10; 11; 12].
Proof. reflexivity. Qed.

(** The twelve identifiers [Date.now() + i] of the start are pairwise
    distinct when the clock does not go backwards, even if every reading
    is the same. *)
Lemma initial_NoDup (markup : Page) (clock : Z -> Z) :
  (forall i j : Z, i <= j -> clock i <= clock j) ->
  NoDup (map id (products (initial markup clock))).
Proof.
  intros M. rewrite initial_ids. cbn [map].
  pose proof (M 1 2 ltac:(lia)). pose proof (M 2 3 ltac:(lia)).
  pose proof (M 3 4 ltac:(lia)). pose proof (M 4 5 ltac:(lia)).
  pose proof (M 5 6 ltac:(lia)). pose proof (M 6 7 ltac:(lia)).
  pose proof (M 7 8 ltac:(lia)). pose proof (M 8 9 ltac:(lia)).
  pose proof (M 9 10 ltac:(lia)). pose proof (M 10 11 ltac:(lia)).
  pose proof (M 11 12 ltac:(lia)).
  repeat (constructor; [cbn [In]; intros D; repeat (destruct D as [D|D]; [lia|]); exact D|]).
  constructor.
Qed.

(** X9. In a session where the clock does not go backwards during the
    start and every [addProduct] runs at a reading that no item of the
    store carries at that moment, the identifiers of the store are
    pairwise distinct in the end: the twelve identifiers [Date.now() + i]
    of the start are, a new identifier is, and removals and all other
    actions keep them so. *)
Theorem session_identifiers_distinct (markup : Page) (clock : Z -> Z) (es : list Event) :
  (forall i j : Z, i <= j -> clock i <= clock j) ->
  timely (initial markup clock) es = true ->
  NoDup (map id (products (run (initial markup clock) es))).
Proof.
  intros M T. apply run_NoDup; [exact T|]. apply initial_NoDup, M.
Qed.

Lemma session_identifiers_distinct_witness :
  NoDup (map id (products
    (run (initial samplePage (fun _ => 0))
         [Fill "a" "10" "1"; AddProduct 1000; DeleteProduct 3;
          Fill "b" "20" "2"; AddProduct 1001; ToggleSummaryView]))).
Proof.
  apply (session_identifiers_distinct samplePage (fun _ => 0)
           [Fill "a" "10" "1"; AddProduct 1000; DeleteProduct 3;
            Fill "b" "20" "2"; AddProduct 1001; ToggleSummaryView]
           (fun i j _ => Z.le_refl _)).
  vm_compute. reflexivity.
Defined.

(** ** Print jobs and console of a session *)

Lemma handle_printed (st : State) (e : Event) :
  synced st ->
  printed (handle st e) =
  printed st ++ (if isPrint e then [(false, page (handle st e))] else [])
  /\ (isPrint e = true ->
        forallb priceShown (quotationTableBody (page (handle st e))) = true).
Proof.
  intros S. destruct e as [n p q|now|i| | |]; cbn [handle isPrint];
    try (split; [rewrite app_nil_r; reflexivity|discriminate]).
  - split; [|discriminate]. rewrite app_nil_r.
    unfold addProduct. destruct (rejected _ _ _); reflexivity.
  - unfold printQuotation. destruct (isSummaryMode st) eqn:E.
    + split.
      * cbn [window_print printed page].
        change (isSummaryMode (toggleSummaryView st)) with (negb (isSummaryMode st)).
        rewrite E. reflexivity.
      * intros _.
        cbn [window_print page]. unfold toggleSummaryView.
        cbn [negb isSummaryMode with_isSummaryMode with_page page renderProducts
             calculateTotals quotationTableBody products]. rewrite E.
        apply (forEach_price_column false).
    + split; [cbn [window_print printed page]; rewrite E; reflexivity|]. intros _.
      apply synced_iff in S. destruct S as [S _].
      cbn [window_print page]. rewrite S, E.
      apply (forEach_price_column false).
Qed.

Lemma run_printed (es : list Event) (st : State) :
  synced st ->
  List.length (printed (run st es)) =
    (List.length (printed st) + List.length (filter isPrint es))%nat
  /\ (forallb detailedJob (printed st) = true ->
      forallb detailedJob (printed (run st es)) = true).
Proof.
  revert st. induction es as [|e es IH]; intros st S; simpl.
  - split; [lia|auto].
  - destruct (handle_printed st e S) as [P R].
    destruct (IH (handle st e) (handle_synced st e S)) as (L & D).
    rewrite L, P, length_app. split.
    + destruct (isPrint e); simpl; lia.
    + intros H. apply D. rewrite P, forallb_app, H.
      destruct (isPrint e); [|reflexivity].
      unfold detailedJob. cbn [forallb fst snd negb].
      rewrite R by reflexivity. reflexivity.
Qed.

(** X10. In a session every [printQuotation] hands exactly one job to the
    browser and nothing else does; every job is taken in Detailed view
    with the unit price shown in each row, whatever the view mode was when
    printing was asked for. *)
Theorem session_print_jobs (markup : Page) (clock : Z -> Z) (es : list Event) :
  let st := run (initial markup clock) es in
  List.length (printed st) = List.length (filter isPrint es)
  /\ forallb detailedJob (printed st) = true.
Proof.
  intros st.
  destruct (run_printed es (initial markup clock) (renderProducts_synced _))
    as (L & D).
  split; [exact L|]. apply D. reflexivity.
Qed.

Lemma handle_console (st : State) (e : Event) :
  console (handle st e) =
  console st ++
    match e with
    | AddProduct _ => if formRejected st then [validationMessage] else []
    | _ => []
    end.
Proof.
  destruct e as [n p q|now|i| | |]; cbn [handle];
    try (rewrite app_nil_r; reflexivity).
  - unfold addProduct, formRejected.
    destruct (rejected _ _ _); [reflexivity|rewrite app_nil_r; reflexivity].
  - rewrite app_nil_r. unfold printQuotation.
    destruct (isSummaryMode st); reflexivity.
Qed.

(** X11. The console of a session holds one validation message for each
    rejected [addProduct], in order, and nothing else: no other function
    writes to it and an accepted item is not reported. *)
Theorem session_console (st : State) (es : list Event) :
  console (run st es) = console st ++ repeat validationMessage (rejections st es).
Proof.
  revert st. induction es as [|e es IH]; intros st; simpl.
  - rewrite app_nil_r. reflexivity.
  - rewrite IH, handle_console, <- app_assoc. f_equal.
    destruct e; try reflexivity.
    destruct (formRejected st); reflexivity.
Qed.

(** ** Toggling twice *)

Lemma toggleSummaryView_viewControls (markup : Page) (st : State) :
  classList_contains "hidden" (headerPrice markup) = false ->
  viewControls markup (isSummaryMode st) (page st) ->
  viewControls markup (negb (isSummaryMode st)) (page (toggleSummaryView st)).
Proof.
  intros Hh (H1 & H2 & H3). unfold viewControls, toggleSummaryView.
  destruct (isSummaryMode st);
    cbn [negb isSummaryMode with_isSummaryMode with_page page renderProducts
         calculateTotals headerPrice tableFooterCells summaryButton].
  - rewrite H1, H2, map_map, classList_remove_added by exact Hh. repeat split.
  - rewrite H1, H2, map_map, classList_add_absent by exact Hh. repeat split.
Qed.

Lemma handle_viewControls (markup : Page) (st : State) (e : Event) :
  classList_contains "hidden" (headerPrice markup) = false ->
  viewControls markup (isSummaryMode st) (page st) ->
  viewControls markup (isSummaryMode (handle st e)) (page (handle st e)).
Proof.
  intros Hh H. destruct e as [n p q|now|i| | |]; cbn [handle]; try exact H.
  - unfold addProduct. destruct (rejected _ _ _); exact H.
  - exact (toggleSummaryView_viewControls markup st Hh H).
  - pose proof (toggleSummaryView_viewControls markup st Hh H) as T.
    unfold printQuotation. destruct (isSummaryMode st) eqn:E.
    + change (viewControls markup (negb (isSummaryMode st)) (page (toggleSummaryView st))).
      rewrite E. exact T.
    + change (viewControls markup (isSummaryMode st) (page st)).
      rewrite E. exact H.
Qed.

Lemma run_viewControls (markup : Page) (es : list Event) (st : State) :
  classList_contains "hidden" (headerPrice markup) = false ->
  viewControls markup (isSummaryMode st) (page st) ->
  viewControls markup (isSummaryMode (run st es)) (page (run st es)).
Proof.
  intros Hh. revert st. induction es as [|e es IH]; intros st H; simpl.
  - exact H.
  - apply IH, handle_viewControls; assumption.
Qed.

Lemma toggle_twice (markup : Page) (st : State) :
  classList_contains "hidden" (headerPrice markup) = false ->
  viewControls markup (isSummaryMode st) (page st) ->
  synced st ->
  toggleSummaryView (toggleSummaryView st) = st.
Proof.
  intros Hh V S.
  pose proof (toggleSummaryView_viewControls markup _ Hh
                (toggleSummaryView_viewControls markup st Hh V)) as V2.
  change (isSummaryMode (toggleSummaryView st)) with (negb (isSummaryMode st)) in V2.
  rewrite negb_involutive in V2.
  pose proof (toggleSummaryView_synced (toggleSummaryView st)) as S2.
  apply synced_iff in S, S2.
  remember (toggleSummaryView (toggleSummaryView st)) as st2 eqn:E2.
  assert (F : products st2 = products st
              /\ isSummaryMode st2 = isSummaryMode st
              /\ productName (page st2) = productName (page st)
              /\ unitPrice (page st2) = unitPrice (page st)
              /\ quantity (page st2) = quantity (page st)
              /\ console st2 = console st
              /\ printed st2 = printed st).
  { subst st2. unfold toggleSummaryView.
    destruct (isSummaryMode st); repeat split. }
  destruct F as (F1 & F2 & F3 & F4 & F5 & F6 & F7).
  rewrite F1, F2 in S2.
  destruct V as (V1 & V3 & V4). destruct V2 as (W1 & W3 & W4).
  destruct S as (S0 & S1 & S3 & S4). destruct S2 as (T0 & T1 & T3 & T4).
  clear E2.
  destruct st2 as [ps2 m2 [a2 b2 c2 rows2 s2 v2 g2 btn2 hp2 fc2] con2 pr2].
  destruct st as [ps m [a b c rows s v g btn hp fc] con pr].
  cbn in *. congruence.
Qed.

(** X12. On a page whose markup starts in Detailed (no [hidden] on the
    unit-price header, footer label cells spanning 4 columns, the button
    labelled for the detailed view), toggling the view twice from any
    state of a session gives back exactly that state: store, rows, totals,
    header, footer, button, form, console and print jobs. *)
Theorem toggleSummaryView_twice (markup : Page) (clock : Z -> Z) (es : list Event) :
  classList_contains "hidden" (headerPrice markup) = false ->
  forallb (Z.eqb 4) (tableFooterCells markup) = true ->
  summaryButton markup = "Toggle Summary View (Show Totals Only)" ->
  let st := run (initial markup clock) es in
  toggleSummaryView (toggleSummaryView st) = st.
Proof.
  intros Hh Hf Hb st.
  apply (toggle_twice markup); [exact Hh| |apply session_synced].
  apply run_viewControls; [exact Hh|].
  unfold viewControls. cbn. rewrite (colspan_same 4) by exact Hf. auto.
Qed.

Lemma toggleSummaryView_twice_witness :
  let st := run (initial samplePage (fun _ => 0))
                [ToggleSummaryView; Fill "a" "10" "1"; AddProduct 1000] in
  toggleSummaryView (toggleSummaryView st) = st.
Proof.
  apply (toggleSummaryView_twice samplePage (fun _ => 0)
           [ToggleSummaryView; Fill "a" "10" "1"; AddProduct 1000]
           eq_refl eq_refl eq_refl).
Defined.
